(** * PCA9685 driver (src/PCA9685.cpp): a shallow embedding and its properties

    The driver talks to a 16-channel PWM chip through an Arduino [TwoWire]
    bus object.  The bus is an external collaborator: here it is a record of
    response functions, and every driver operation is a computation that
    receives the log of bus events so far and returns its result together
    with the events it issued. *)

From Stdlib Require Import ZArith List Bool Lia.
From Stdlib Require Import Floats.SpecFloat.
From Stdlib Require Import QArith Qround.
Import ListNotations.
Open Scope Z_scope.

(** ** Fixed-width integers of the source *)

(** Conversion to [uint8_t]. *)
Definition u8 (x : Z) : Z := x mod 256.

(** Conversion to [uint16_t]. *)
Definition u16 (x : Z) : Z := x mod 65536.

(** Arduino's [min(a,b)] macro: [((a)<(b)?(a):(b))]. *)
Definition min (a b : Z) : Z := if a <? b then a else b.

(** ** Floating point: [float] and [double]

    Values are [spec_float] of the Standard Library; an operation rounds to
    nearest-even in the format it is carried out in. *)

Record float_format := { prec : Z; emax : Z }.

Definition binary32 : float_format := {| prec := 24; emax := 128 |}.
Definition binary64 : float_format := {| prec := 53; emax := 1024 |}.

(** Conversion of a floating-point value to format [fmt] (exact when
    widening, rounding when narrowing). *)
Definition to_format (fmt : float_format) (x : spec_float) : spec_float :=
  match x with
  | S754_finite s m e => binary_round (prec fmt) (emax fmt) s m e
  | _ => x
  end.

(** Conversion of an integer to format [fmt]. *)
Definition of_int (fmt : float_format) (n : Z) : spec_float :=
  binary_normalize (prec fmt) (emax fmt) n 0 false.

Definition fmul (fmt : float_format) := SFmul (prec fmt) (emax fmt).
Definition fdiv (fmt : float_format) := SFdiv (prec fmt) (emax fmt).
Definition fadd (fmt : float_format) := SFadd (prec fmt) (emax fmt).
Definition fsub (fmt : float_format) := SFsub (prec fmt) (emax fmt).

(** The decimal literal [num/den] in format [fmt]: the value of the format
    nearest to the decimal, which is what the correctly rounded quotient of
    the two integers gives. *)
Definition literal (fmt : float_format) (num den : Z) : spec_float :=
  fdiv fmt (of_int fmt num) (of_int fmt den).

(** [floor] of math.h, carried out in format [fmt]. *)
Definition floor (fmt : float_format) (x : spec_float) : spec_float :=
  match x with
  | S754_finite s m e =>
      binary_normalize (prec fmt) (emax fmt)
        (Z.shiftl (cond_Zopp s (Zpos m)) e) 0 s
  | _ => x
  end.

(** Conversion of a floating-point value to [uint8_t]: the fractional part is
    discarded.  C++ gives the conversion a meaning only when the truncated
    value fits the destination; for the other inputs the model fixes one
    result a target may give: the truncated value modulo 256, and 0 for
    infinities and NaN. *)
Definition float_to_uint8 (x : spec_float) : Z :=
  match x with
  | S754_finite s m e =>
      let mag := Z.shiftl (Zpos m) e in
      u8 (cond_Zopp s mag)
  | _ => 0
  end.

(** ** The bus: events and the transport collaborator *)

(** What the driver does to the outside world, in the order it does it.
    An event that has an answer records the answer. *)
Inductive Event : Type :=
| EvBeginTransmission (address : Z)
| EvWrite (data : Z)
| EvEndTransmission (sendStop : bool) (status : Z)
| EvRequestFrom (address quantity : Z)
| EvAvailable (count : Z)
| EvRead (value : Z)
| EvDelay (ms : Z).

(** A [TwoWire] object, seen from the driver: how it answers, given the log
    of all events before the call. *)
Record TwoWire := {
  endTransmission_status : list Event -> bool -> Z;
  available_count : list Event -> Z;
  read_value : list Event -> Z
}.

(** A computation takes the log so far and gives its result and the events
    it issued itself. *)
Definition M (A : Type) : Type := list Event -> A * list Event.

Definition ret {A} (a : A) : M A := fun _ => (a, []).

Definition bind {A B} (m : M A) (f : A -> M B) : M B :=
  fun h =>
    let '(a, t1) := m h in
    let '(b, t2) := f a (h ++ t1) in
    (b, t1 ++ t2).

Notation "x <- m ;; k" := (bind m (fun x => k))
  (at level 61, m at next level, right associativity).
Notation "m ;; k" := (bind m (fun _ => k))
  (at level 61, right associativity).

Definition emit (e : Event) : M unit := fun _ => (tt, [e]).

Section Transport.
Variable bus : TwoWire.

Definition beginTransmission (address : Z) : M unit :=
  emit (EvBeginTransmission (u8 address)).

(** [write] takes one byte: its argument is converted to [uint8_t]. *)
Definition write (data : Z) : M unit := emit (EvWrite (u8 data)).

Definition endTransmission (sendStop : bool) : M Z :=
  fun h =>
    let st := endTransmission_status bus h sendStop in
    (st, [EvEndTransmission sendStop st]).

(** The driver discards the count [requestFrom] returns. *)
Definition requestFrom (address quantity : Z) : M unit :=
  emit (EvRequestFrom (u8 address) (u8 quantity)).

Definition available : M Z :=
  fun h => let n := available_count bus h in (n, [EvAvailable n]).

Definition read : M Z :=
  fun h => let v := read_value bus h in (v, [EvRead v]).
End Transport.

(** Arduino's blocking [delay(ms)]. *)
Definition delay (ms : Z) : M unit := emit (EvDelay ms).

(** ** The driver *)

(** The register addresses come from PCA9685.h, which is not among the
    sources: they are parameters of the development. *)
Class Header := {
  PCA9685_MODE1 : Z;
  PCA9685_PRESCALE : Z;
  LED0_ON_L : Z
}.

(** A driver object: the device address and the bus it was given. *)
Record PCA9685 := {
  _i2caddr : Z;
  _i2cBus : TwoWire
}.

(** The constructor stores both arguments and performs no I/O. *)
Definition PCA9685_new (addr : Z) (i2cBus : TwoWire) : PCA9685 :=
  {| _i2caddr := u8 addr; _i2cBus := i2cBus |}.

(** An out-parameter [uint8_t *p]: [None] is the null pointer, [Some v] a
    location that holds [v].  A function that takes one returns the location
    as it is after the call. *)
Definition out_ptr := option Z.

Definition store (p : out_ptr) (v : Z) : out_ptr :=
  match p with
  | Some _ => Some v
  | None => None
  end.

Definition load (p : out_ptr) (dflt : Z) : Z :=
  match p with
  | Some v => v
  | None => dflt
  end.

Section Driver.
Context {hdr : Header}.
(** The format of [double] on the target: binary32 on AVR boards, binary64
    on the 32-bit ones.  [float] is binary32 everywhere. *)
Variable double : float_format.
Variable this : PCA9685.

(** A parameter of type [uint8_t] or [uint16_t] receives its argument
    converted to that type: each function starts by converting. *)

Definition read8 (addr : Z) (returnedValue : out_ptr) : M (bool * out_ptr) :=
  let addr := u8 addr in
  beginTransmission (_i2caddr this) ;;
  write addr ;;
  st <- endTransmission (_i2cBus this) false ;;
  if negb (st =? 0) then ret (false, returnedValue)
  else
    requestFrom (u8 (_i2caddr this)) (u8 1) ;;
    n <- available (_i2cBus this) ;;
    if n =? 0 then ret (false, returnedValue)
    else
      v <- read (_i2cBus this) ;;
      let readValue := u8 v in
      ret (true, store returnedValue readValue).

Definition write8 (addr d : Z) : M bool :=
  let addr := u8 addr in
  let d := u8 d in
  beginTransmission (_i2caddr this) ;;
  write addr ;;
  write d ;;
  st <- endTransmission (_i2cBus this) true ;;
  ret (st =? 0).

Definition reset : M bool :=
  ok <- write8 PCA9685_MODE1 0x80 ;;
  if negb ok then ret false
  else
    delay 10 ;;
    ret true.

(** The arithmetic of [setPWMFreq] before any bus traffic: the byte that
    will go to the prescale register. *)
Definition prescale_of (freq : spec_float) : Z :=
  (* freq *= 0.9;  the product is formed in double, then stored as float *)
  let freq :=
    to_format binary32
      (fmul double (to_format double freq) (literal double 9 10)) in
  (* float prescaleval = 25000000; *)
  let prescaleval := of_int binary32 25000000 in
  (* prescaleval /= 4096; *)
  let prescaleval := fdiv binary32 prescaleval (of_int binary32 4096) in
  (* prescaleval /= freq; *)
  let prescaleval := fdiv binary32 prescaleval freq in
  (* prescaleval -= 1; *)
  let prescaleval := fsub binary32 prescaleval (of_int binary32 1) in
  (* uint8_t prescale = floor(prescaleval + 0.5); *)
  float_to_uint8
    (floor double
       (fadd double (to_format double prescaleval) (literal double 5 10))).

Definition setPWMFreq (freq : spec_float) : M bool :=
  let freq := to_format binary32 freq in
  let prescale := prescale_of freq in
  let oldmode := 0 in
  r <- read8 PCA9685_MODE1 (Some oldmode) ;;
  let oldmode := load (snd r) oldmode in
  if negb (fst r) then ret false
  else
    let newmode := u8 (Z.lor (Z.land oldmode 0x7F) 0x10) in
    ok <- write8 PCA9685_MODE1 newmode ;;
    if negb ok then ret false
    else
      ok <- write8 PCA9685_PRESCALE prescale ;;
      if negb ok then ret false
      else
        ok <- write8 PCA9685_MODE1 oldmode ;;
        if negb ok then ret false
        else
          delay 5 ;;
          ok <- write8 PCA9685_MODE1 (Z.lor oldmode 0xa0) ;;
          if negb ok then ret false
          else ret true.

Definition begin : M bool :=
  ok <- reset ;;
  if negb ok then ret false
  else
    (* set a default frequency *)
    setPWMFreq (of_int binary32 1000).

Definition setPWM (num on off : Z) : M bool :=
  let num := u8 num in
  let on := u16 on in
  let off := u16 off in
  beginTransmission (_i2caddr this) ;;
  write (LED0_ON_L + 4 * num) ;;
  write on ;;
  write (Z.shiftr on 8) ;;
  write off ;;
  write (Z.shiftr off 8) ;;
  st <- endTransmission (_i2cBus this) true ;;
  ret (st =? 0).

Definition setPin (num val : Z) (invert : bool) : M bool :=
  let num := u8 num in
  let val := u16 val in
  (* Clamp value between 0 and 4095 inclusive. *)
  let val := min val (u16 4095) in
  let on := 0 in
  let off := 0 in
  let '(on, off) :=
    if invert then
      if val =? 0 then (* Special value for signal fully on. *)
        (4096, off)
      else if val =? 4095 then (* Special value for signal fully off. *)
        (on, 4096)
      else (on, u16 (4095 - val))
    else
      if val =? 4095 then (* Special value for signal fully on. *)
        (4096, off)
      else if val =? 0 then (* Special value for signal fully off. *)
        (on, 4096)
      else (on, val) in
  setPWM num on off.
End Driver.

(** ** Concrete buses and headers, to run the model on *)

(** The register addresses of the chip's data sheet. *)
Definition datasheet_header : Header :=
  {| PCA9685_MODE1 := 0x00; PCA9685_PRESCALE := 0xFE; LED0_ON_L := 0x06 |}.

(** A device that acknowledges everything, always has a byte to read, and
    reads [value] from every register. *)
Definition responsive_bus (value : Z) : TwoWire :=
  {| endTransmission_status := fun _ _ => 0;
     available_count := fun _ => 1;
     read_value := fun _ => value |}.

(** A device that acknowledges its address but delivers no data. *)
Definition mute_bus : TwoWire :=
  {| endTransmission_status := fun _ _ => 0;
     available_count := fun _ => 0;
     read_value := fun _ => -1 |}.

(** A device that acknowledges transmissions as long as the log holds fewer
    than [k] events, and none after; it always has a byte to read, and reads
    [value] from every register. *)
Definition fading_bus (k : nat) (value : Z) : TwoWire :=
  {| endTransmission_status :=
       fun h _ => if (length h <? k)%nat then 0 else 3;
     available_count := fun _ => 1;
     read_value := fun _ => value |}.

(** ** Vocabulary of the statements

    None of what follows is used by the driver: these definitions describe
    its calls and its logs. *)

(** The public operations of the class, as one type of calls. *)
Inductive Call : Type :=
| CallBegin
| CallReset
| CallSetPWMFreq (freq : spec_float)
| CallSetPWM (num on off : Z)
| CallSetPin (num val : Z) (invert : bool).

Definition call {hdr : Header} (double : float_format) (this : PCA9685)
    (c : Call) : M bool :=
  match c with
  | CallBegin => begin double this
  | CallReset => reset this
  | CallSetPWMFreq freq => setPWMFreq double this freq
  | CallSetPWM num on off => setPWM this num on off
  | CallSetPin num val invert => setPin this num val invert
  end.

(** A completed one-byte register read that delivered [raw], with [n] bytes
    reported available. *)
Definition reg_read_events (dev reg n raw : Z) : list Event :=
  [EvBeginTransmission dev; EvWrite reg; EvEndTransmission false 0;
   EvRequestFrom dev 1; EvAvailable n; EvRead raw].

(** A register write whose transmission ended with status [st]. *)
Definition reg_write_events (dev reg value st : Z) : list Event :=
  [EvBeginTransmission dev; EvWrite reg; EvWrite value;
   EvEndTransmission true st].

(** The register writes found in a log, oldest first, as (register, value). *)
Fixpoint reg_writes (t : list Event) : list (Z * Z) :=
  match t with
  | [] => []
  | EvBeginTransmission _ :: EvWrite reg :: EvWrite value ::
      EvEndTransmission true _ :: rest => (reg, value) :: reg_writes rest
  | _ :: rest => reg_writes rest
  end.

(** The last value written to register [reg] in a log, if any. *)
Definition last_reg_write (reg : Z) (t : list Event) : option Z :=
  match filter (fun w => fst w =? reg) (rev (reg_writes t)) with
  | [] => None
  | w :: _ => Some (snd w)
  end.

(** The bus operation of an event succeeded: a transmission ended with
    status 0, [available] reported at least one byte. *)
Definition succeeded (e : Event) : Prop :=
  match e with
  | EvEndTransmission _ st => st = 0
  | EvAvailable n => n <> 0
  | _ => True
  end.

(** A log in which a bus operation that did not succeed (a transmission that
    ended with a nonzero status, an [available] that reported no byte) is the
    last event, the result [r] of the call then being false. *)
Fixpoint halts_at_failure (r : bool) (t : list Event) : Prop :=
  match t with
  | [] => True
  | e :: post =>
      (~ succeeded e -> r = false /\ post = []) /\ halts_at_failure r post
  end.

(** What [setPWM] puts on the wire between the start and the end of its
    transmission: the register address and the two ticks, low byte first. *)
Definition setPWM_bytes {hdr : Header} (num on off : Z) : list Event :=
  [EvWrite ((LED0_ON_L + 4 * num) mod 256);
   EvWrite (u8 on); EvWrite (u8 (Z.shiftr (u16 on) 8));
   EvWrite (u8 off); EvWrite (u8 (Z.shiftr (u16 off) 8))].

(** The runs of [setPWMFreq] on device [dev], with MODE1 at [mode1], PRESCALE
    at [presc] and [p] the prescale byte: where the run ended, its result
    and its log. *)
Inductive setPWMFreq_run (dev mode1 presc p : Z) : bool -> list Event -> Prop :=
| run_address_nack (st : Z) :
    st <> 0 ->
    setPWMFreq_run dev mode1 presc p false
      [EvBeginTransmission dev; EvWrite mode1; EvEndTransmission false st]
| run_no_data :
    setPWMFreq_run dev mode1 presc p false
      [EvBeginTransmission dev; EvWrite mode1; EvEndTransmission false 0;
       EvRequestFrom dev 1; EvAvailable 0]
| run_sleep_nack (n raw st : Z) :
    n <> 0 -> st <> 0 ->
    setPWMFreq_run dev mode1 presc p false
      (reg_read_events dev mode1 n raw ++
       reg_write_events dev mode1 (Z.lor (Z.land (u8 raw) 0x7F) 0x10) st)
| run_prescale_nack (n raw st : Z) :
    n <> 0 -> st <> 0 ->
    setPWMFreq_run dev mode1 presc p false
      (reg_read_events dev mode1 n raw ++
       reg_write_events dev mode1 (Z.lor (Z.land (u8 raw) 0x7F) 0x10) 0 ++
       reg_write_events dev presc p st)
| run_restore_nack (n raw st : Z) :
    n <> 0 -> st <> 0 ->
    setPWMFreq_run dev mode1 presc p false
      (reg_read_events dev mode1 n raw ++
       reg_write_events dev mode1 (Z.lor (Z.land (u8 raw) 0x7F) 0x10) 0 ++
       reg_write_events dev presc p 0 ++
       reg_write_events dev mode1 (u8 raw) st)
| run_autoincrement_nack (n raw st : Z) :
    n <> 0 -> st <> 0 ->
    setPWMFreq_run dev mode1 presc p false
      (reg_read_events dev mode1 n raw ++
       reg_write_events dev mode1 (Z.lor (Z.land (u8 raw) 0x7F) 0x10) 0 ++
       reg_write_events dev presc p 0 ++
       reg_write_events dev mode1 (u8 raw) 0 ++
       EvDelay 5 ::
       reg_write_events dev mode1 (Z.lor (u8 raw) 0xA0) st)
| run_done (n raw : Z) :
    n <> 0 ->
    setPWMFreq_run dev mode1 presc p true
      (reg_read_events dev mode1 n raw ++
       reg_write_events dev mode1 (Z.lor (Z.land (u8 raw) 0x7F) 0x10) 0 ++
       reg_write_events dev presc p 0 ++
       reg_write_events dev mode1 (u8 raw) 0 ++
       EvDelay 5 ::
       reg_write_events dev mode1 (Z.lor (u8 raw) 0xA0) 0).

Section Statements.
Context {hdr : Header}.
Variable double : float_format.
Variable this : PCA9685.

(** The sentence "the write that puts the chip to sleep has the sleep bit set
    and every other bit as read", at one run of [setPWMFreq]: whenever the
    log starts with a completed read of MODE1 that delivered [raw], a write
    to MODE1 follows whose value has bit 4 set and agrees with the byte read
    on every other bit. *)
Definition sleep_write_keeps_every_other_bit (freq : spec_float) (h : list Event) : Prop :=
  forall n raw rest,
    n <> 0 ->
    snd (setPWMFreq double this freq h) =
      reg_read_events (u8 (_i2caddr this)) (u8 PCA9685_MODE1) n raw ++ rest ->
    exists w st rest',
      rest = reg_write_events (u8 (_i2caddr this)) (u8 PCA9685_MODE1) w st ++ rest' /\
      Z.testbit w 4 = true /\
      forall i, i <> 4 -> Z.testbit w i = Z.testbit (u8 raw) i.

(** The sentence "setFrequency(1000), when every bus operation succeeds,
    issues read MODE1, write MODE1 with sleep set, write PRESCALE with
    [prescale], write MODE1 with the value read, write MODE1 with the value
    read OR 0xA0", at one run; the [delay(5)] of the source stands before the
    last write. *)
Definition setPWMFreq_1000_sequence (prescale : Z) (h : list Event) : Prop :=
  let dev := u8 (_i2caddr this) in
  let mode1 := u8 PCA9685_MODE1 in
  forall r t,
    setPWMFreq double this (of_int binary32 1000) h = (r, t) ->
    Forall succeeded t ->
    r = true /\
    exists n raw w,
      Z.testbit w 4 = true /\
      t = reg_read_events dev mode1 n raw ++
          reg_write_events dev mode1 w 0 ++
          reg_write_events dev (u8 PCA9685_PRESCALE) prescale 0 ++
          reg_write_events dev mode1 (u8 raw) 0 ++
          EvDelay 5 ::
          reg_write_events dev mode1 (Z.lor (u8 raw) 0xA0) 0.

(** The sentence "when setFrequency returns true, the last value written to
    the mode-control register has the sleep bit clear", at one run. *)
Definition setPWMFreq_leaves_sleep_clear (freq : spec_float) (h : list Event) : Prop :=
  forall t,
    setPWMFreq double this freq h = (true, t) ->
    exists w,
      last_reg_write (u8 PCA9685_MODE1) t = Some w /\ Z.testbit w 4 = false.
End Statements.

(** ** Vocabulary of the further properties *)

(** The register and the two ticks carried by a log of the shape [setPWM]
    produces: one transmission of five bytes, each tick low byte first. *)
Definition decode_setPWM (t : list Event) : option (Z * Z * Z) :=
  match t with
  | [EvBeginTransmission _; EvWrite reg; EvWrite on_l; EvWrite on_h;
     EvWrite off_l; EvWrite off_h; EvEndTransmission _ _] =>
      Some (reg, on_l + 256 * on_h, off_l + 256 * off_h)
  | _ => None
  end.

(** An event that concerns device [dev] only: a transmission or a request is
    addressed to [dev], a request asks for one byte, and what is written is
    a byte. *)
Definition own_traffic (dev : Z) (e : Event) : Prop :=
  match e with
  | EvBeginTransmission a => a = dev
  | EvRequestFrom a q => a = dev /\ q = 1
  | EvWrite b => 0 <= b < 256
  | _ => True
  end.

(** The time a log spends in [delay], in milliseconds. *)
Fixpoint total_delay (t : list Event) : Z :=
  match t with
  | [] => 0
  | EvDelay ms :: rest => ms + total_delay rest
  | _ :: rest => total_delay rest
  end.

(** The delay of a call that runs to its end. *)
Definition delay_budget (c : Call) : Z :=
  match c with
  | CallBegin => 15
  | CallReset => 10
  | CallSetPWMFreq _ => 5
  | CallSetPWM _ _ _ => 0
  | CallSetPin _ _ _ => 0
  end.

(** The prescale formula in exact arithmetic, for an integer frequency [f]:
    25000000/4096/(0.9 f) - 1, rounded by adding one half and taking the
    integer part. *)
Definition rounded_prescale (f : Z) : Z :=
  Qfloor ((25000000 # 4096) / ((9 # 10) * inject_Z f) - 1 + (1 # 2))%Q.

(** [p] holds at [lo], [lo+1], ..., [lo+n-1]. *)
Fixpoint all_from (p : Z -> bool) (lo : Z) (n : nat) : bool :=
  match n with
  | O => true
  | S k => p lo && all_from p (lo + 1) k
  end.

(** The four register writes of a complete [setPWMFreq], as (register,
    value), for the byte [old] read from MODE1 and the prescale byte [p]. *)
Definition setPWMFreq_writes {hdr : Header} (old p : Z) : list (Z * Z) :=
  [(u8 PCA9685_MODE1, Z.lor (Z.land old 0x7F) 0x10);
   (u8 PCA9685_PRESCALE, p);
   (u8 PCA9685_MODE1, old);
   (u8 PCA9685_MODE1, Z.lor old 0xA0)].

(** The register writes found in a log, oldest first, each with the status
    its transmission ended with: ((register, value), status). *)
Fixpoint reg_write_log (t : list Event) : list (Z * Z * Z) :=
  match t with
  | [] => []
  | EvBeginTransmission _ :: EvWrite reg :: EvWrite value ::
      EvEndTransmission true st :: rest =>
      (reg, value, st) :: reg_write_log rest
  | _ :: rest => reg_write_log rest
  end.

(** Register writes that all ended with status [st]. *)
Definition with_status (st : Z) (ws : list (Z * Z)) : list (Z * Z * Z) :=
  map (fun w => (w, st)) ws.

(** At integer frequency [f], the byte [setPWMFreq] computes is the exactly
    rounded one, and it lies in 2..250. *)
Definition prescale_exact_at (double : float_format) (f : Z) : bool :=
  (prescale_of double (to_format binary32 (of_int binary32 f)) =?
     rounded_prescale f) &&
  (2 <=? rounded_prescale f) && (rounded_prescale f <=? 250).

(** From [f] to [f+1] the exactly rounded prescale does not grow. *)
Definition rounded_prescale_step (f : Z) : bool :=
  rounded_prescale (f + 1) <=? rounded_prescale f.

(** * Properties *)

(** ** Integer conversions *)

Lemma u8_range (x : Z) : 0 <= u8 x < 256.
Proof. unfold u8. apply Z.mod_pos_bound. lia. Qed.

Lemma u8_small (x : Z) : 0 <= x < 256 -> u8 x = x.
Proof. intro H. unfold u8. now apply Z.mod_small. Qed.

Lemma u8_idem (x : Z) : u8 (u8 x) = u8 x.
Proof. apply u8_small, u8_range. Qed.

Lemma u16_small (x : Z) : 0 <= x < 65536 -> u16 x = x.
Proof. intro H. unfold u16. now apply Z.mod_small. Qed.

Lemma u8_u16 (x : Z) : u8 (u16 x) = u8 x.
Proof.
  unfold u8, u16. apply Z.mod_mod_divide.
  exists 256. reflexivity.
Qed.

Lemma u8_testbit (x i : Z) :
  Z.testbit (u8 x) i = (i <? 8) && Z.testbit x i.
Proof.
  unfold u8. change 256 with (2 ^ 8).
  apply Z.testbit_mod_pow2. lia.
Qed.

Lemma u8_lor (a b : Z) : u8 (Z.lor a b) = Z.lor (u8 a) (u8 b).
Proof.
  apply Z.bits_inj'. intros i _.
  rewrite Z.lor_spec, !u8_testbit, Z.lor_spec.
  destruct (i <? 8); reflexivity.
Qed.

Lemma u8_land (a b : Z) : u8 (Z.land a b) = Z.land (u8 a) (u8 b).
Proof.
  apply Z.bits_inj'. intros i _.
  rewrite Z.land_spec, !u8_testbit, Z.land_spec.
  destruct (i <? 8); reflexivity.
Qed.

(** ** Running the model *)

(** Unfolds the monad and the transport, leaving the driver's branching on
    the bus's answers. *)
Ltac unfold_monad :=
  cbv beta iota zeta delta
    [bind ret emit beginTransmission write endTransmission requestFrom
     available read delay fst snd load store].

(** Brings the logs to the form [h ++ [e1; ...; en]]. *)
Ltac norm_log := repeat rewrite <- app_assoc; cbn [app].

(** Splits on the next answer the driver compares with zero. *)
Ltac split_answer :=
  match goal with
  | |- context [?x =? 0] =>
      let E := fresh "E" in
      destruct (Z.eqb_spec x 0) as [E | E];
      [try rewrite E | ];
      cbv beta iota zeta delta [negb fst snd load store];
      norm_log
  end.

Section Reset.
Context {hdr : Header}.
Variable this : PCA9685.

(** C9.  [reset] issues one register write, of 0x80 to MODE1, and nothing
    before it.  When that write's transmission ends with status 0, a
    [delay(10)] follows and the result is true; otherwise the result is
    false and no delay takes place. *)
Theorem reset_one_write_then_delay (h : list Event) :
  let dev := u8 (_i2caddr this) in
  let mode1 := u8 PCA9685_MODE1 in
  let st :=
    endTransmission_status (_i2cBus this)
      (h ++ [EvBeginTransmission dev; EvWrite mode1; EvWrite 0x80]) true in
  reset this h =
    (st =? 0,
     reg_write_events dev mode1 0x80 st ++
     (if st =? 0 then [EvDelay 10] else [])).
Proof.
  intros dev mode1 st.
  unfold reset, write8. unfold_monad.
  rewrite !u8_idem. change (u8 128) with 128.
  norm_log.
  fold dev mode1 st.
  destruct (st =? 0); reflexivity.
Qed.
End Reset.

Section Channels.
Context {hdr : Header}.
Variable this : PCA9685.

Lemma setPWM_run (num on off : Z) (h : list Event) :
  let dev := u8 (_i2caddr this) in
  let st :=
    endTransmission_status (_i2cBus this)
      (h ++ EvBeginTransmission dev :: setPWM_bytes (u8 num) on off) true in
  setPWM this num on off h =
    (st =? 0,
     EvBeginTransmission dev :: setPWM_bytes (u8 num) on off ++
     [EvEndTransmission true st]).
Proof.
  intros dev st.
  unfold setPWM. unfold_monad.
  rewrite !u8_u16. norm_log.
  reflexivity.
Qed.

(** C10.  [setPWM] never looks at the channel number: for every [num] of
    0..255 it sends one transmission of five bytes whose first byte is
    [LED0_ON_L + 4*num] modulo 256, and its result is whether the
    transmission ended with status 0. *)
Theorem setPWM_no_channel_check (num on off : Z) (h : list Event) :
  0 <= num <= 255 ->
  let dev := u8 (_i2caddr this) in
  let st :=
    endTransmission_status (_i2cBus this)
      (h ++ EvBeginTransmission dev :: setPWM_bytes num on off) true in
  setPWM this num on off h =
    (st =? 0,
     EvBeginTransmission dev :: setPWM_bytes num on off ++
     [EvEndTransmission true st]).
Proof.
  intros Hnum. pose proof (setPWM_run num on off h) as H.
  rewrite (u8_small num) in H by lia. exact H.
Qed.

Lemma setPWM_u8 (num on off : Z) (h : list Event) :
  setPWM this (u8 num) on off h = setPWM this num on off h.
Proof. unfold setPWM. rewrite u8_idem. reflexivity. Qed.

(** C2.  Without inversion, a duty value of 0..4095 goes to [setPWM] as
    on=0, off=value, except that 4095 goes as on=4096, off=0 and 0 goes as
    on=0, off=4096. *)
Theorem setPin_plain (num val : Z) (h : list Event) :
  0 <= val <= 4095 ->
  setPin this num val false h =
    if val =? 4095 then setPWM this num 4096 0 h
    else if val =? 0 then setPWM this num 0 4096 h
    else setPWM this num 0 val h.
Proof.
  intros Hval. unfold setPin.
  rewrite (u16_small val) by lia. change (u16 4095) with 4095.
  unfold min.
  destruct (Z.eqb_spec val 4095) as [-> | Hne].
  - change (4095 <? 4095) with false. change (4095 =? 4095) with true.
    cbv beta iota zeta. apply setPWM_u8.
  - destruct (Z.ltb_spec val 4095) as [_ | Hge]; [ | lia ].
    apply Z.eqb_neq in Hne. rewrite Hne.
    destruct (val =? 0); apply setPWM_u8.
Qed.

(** C3.  With inversion, a duty value of 0..4095 goes to [setPWM] as on=0,
    off=4095-value, except that 0 goes as on=4096, off=0 and 4095 goes as
    on=0, off=4096. *)
Theorem setPin_inverted (num val : Z) (h : list Event) :
  0 <= val <= 4095 ->
  setPin this num val true h =
    if val =? 0 then setPWM this num 4096 0 h
    else if val =? 4095 then setPWM this num 0 4096 h
    else setPWM this num 0 (4095 - val) h.
Proof.
  intros Hval. unfold setPin.
  rewrite (u16_small val) by lia. change (u16 4095) with 4095.
  unfold min.
  destruct (Z.eqb_spec val 4095) as [-> | Hne].
  - change (4095 <? 4095) with false. change (4095 =? 4095) with true.
    change (4095 =? 0) with false.
    cbv beta iota zeta. apply setPWM_u8.
  - destruct (Z.ltb_spec val 4095) as [_ | Hge]; [ | lia ].
    apply Z.eqb_neq in Hne. rewrite Hne.
    destruct (val =? 0); [ apply setPWM_u8 | ].
    rewrite (u16_small (4095 - val)) by lia. apply setPWM_u8.
Qed.

(** C4.  A duty value above 4095 (and within [uint16_t]) is treated, with
    either setting of [invert], exactly as 4095: same result, same bytes
    on the wire. *)
Theorem setPin_clamps (num val : Z) (invert : bool) (h : list Event) :
  4095 < val <= 65535 ->
  setPin this num val invert h = setPin this num 4095 invert h.
Proof.
  intros Hval. unfold setPin.
  rewrite (u16_small val) by lia. change (u16 4095) with 4095.
  unfold min.
  destruct (Z.ltb_spec val 4095) as [Hlt | _]; [ lia | ].
  reflexivity.
Qed.
End Channels.

Section RegisterRead.
Variable this : PCA9685.

(** C8.  When the address phase of [read8] is acknowledged and no byte is
    available after the request, [read8] fails and the caller's location
    holds what it held, the log being the five events up to [available];
    and whenever [read8] fails, the caller's location is unchanged. *)
Theorem read8_failure_keeps_output (addr : Z) (p : out_ptr) (h : list Event) :
  let dev := u8 (_i2caddr this) in
  let sent := [EvBeginTransmission dev; EvWrite (u8 addr)] in
  let asked := [EvEndTransmission false 0; EvRequestFrom dev 1] in
  (endTransmission_status (_i2cBus this) (h ++ sent) false = 0 ->
   available_count (_i2cBus this) (h ++ sent ++ asked) = 0 ->
   read8 this addr p h = ((false, p), sent ++ asked ++ [EvAvailable 0]))
  /\
  (fst (fst (read8 this addr p h)) = false ->
   snd (fst (read8 this addr p h)) = p).
Proof.
  intros dev sent asked. unfold read8. unfold_monad.
  rewrite !u8_idem. change (u8 1) with 1.
  norm_log. fold dev.
  split.
  - subst sent asked. cbn [app]. intros Hst Hav.
    rewrite Hst. change (0 =? 0) with true.
    cbv beta iota zeta delta [negb]. norm_log.
    rewrite Hav. reflexivity.
  - repeat split_answer; cbn [fst snd]; intros Hfail;
      (reflexivity || discriminate Hfail).
Qed.
End RegisterRead.

Lemma float_to_uint8_byte (x : spec_float) : u8 (float_to_uint8 x) = float_to_uint8 x.
Proof.
  destruct x; try reflexivity.
  unfold float_to_uint8. apply u8_idem.
Qed.

Lemma u8_sleep_value (raw : Z) :
  u8 (Z.lor (Z.land (u8 raw) 0x7F) 0x10) = Z.lor (Z.land (u8 raw) 0x7F) 0x10.
Proof. rewrite u8_lor, u8_land, u8_idem. reflexivity. Qed.

Lemma u8_autoincrement_value (raw : Z) :
  u8 (Z.lor (u8 raw) 0xa0) = Z.lor (u8 raw) 0xa0.
Proof. rewrite u8_lor, u8_idem. reflexivity. Qed.

Section Frequency.
Context {hdr : Header}.
Variable double : float_format.
Variable this : PCA9685.

(** Every run of [setPWMFreq] is one of the seven of [setPWMFreq_run]. *)
Lemma setPWMFreq_runs (freq : spec_float) (h : list Event) (r : bool) (t : list Event) :
  setPWMFreq double this freq h = (r, t) ->
  setPWMFreq_run (u8 (_i2caddr this)) (u8 PCA9685_MODE1) (u8 PCA9685_PRESCALE)
    (prescale_of double (to_format binary32 freq)) r t.
Proof.
  unfold setPWMFreq, read8, write8.
  assert (Hp : u8 (prescale_of double (to_format binary32 freq)) =
               prescale_of double (to_format binary32 freq))
    by apply float_to_uint8_byte.
  revert Hp.
  generalize (prescale_of double (to_format binary32 freq)) as p. intros p Hp.
  unfold_monad. norm_log.
  repeat split_answer; intros H; injection H as <- <-;
    rewrite ?u8_idem, ?u8_sleep_value, ?u8_autoincrement_value, ?Hp in *;
    change (u8 1) with 1 in *;
    constructor; assumption.
Qed.

Lemma prescale_of_1000 :
  double = binary32 \/ double = binary64 ->
  prescale_of double (to_format binary32 (of_int binary32 1000)) = 6.
Proof. intros [-> | ->]; vm_compute; reflexivity. Qed.

Lemma testbit_0x10 (i : Z) : Z.testbit 0x10 i = (4 =? i).
Proof. change 0x10 with (2 ^ 4). apply Z.pow2_bits_eqb. lia. Qed.

Lemma testbit_0x7F (i : Z) : Z.testbit 0x7F i = (0 <=? i) && (i <? 7).
Proof. change 0x7F with (Z.ones 7). apply Z.testbit_ones. lia. Qed.

Lemma sleep_value_bits (old i : Z) :
  Z.testbit (Z.lor (Z.land (u8 old) 0x7F) 0x10) i =
    if i =? 4 then true
    else if i =? 7 then false
    else Z.testbit (u8 old) i.
Proof.
  rewrite Z.lor_spec, Z.land_spec, testbit_0x10, testbit_0x7F, u8_testbit.
  destruct (Z.eqb_spec i 4) as [-> | H4].
  - apply orb_true_r.
  - destruct (Z.eqb_spec 4 i) as [E | _]; [ congruence | ].
    rewrite orb_false_r.
    destruct (Z.eqb_spec i 7) as [-> | H7];
      [ change (7 <? 7) with false; now rewrite !andb_false_r | ].
    destruct (Z.ltb_spec i 8), (Z.ltb_spec i 7), (Z.leb_spec 0 i);
      try lia; cbn [andb]; rewrite ?andb_true_r, ?andb_false_r;
      try reflexivity.
    symmetry. apply Z.testbit_neg_r. lia.
Qed.

(** C1, as the code has it.  Whenever the read of MODE1 in [setPWMFreq]
    delivers a byte, the next thing on the bus is a write to MODE1 of a value
    whose sleep bit (bit 4) is set, whose restart bit (bit 7) is clear, and
    whose other bits are those of the byte read. *)
Theorem sleep_write_bits (freq : spec_float) (h : list Event) (n raw : Z) (rest : list Event) :
  n <> 0 ->
  snd (setPWMFreq double this freq h) =
    reg_read_events (u8 (_i2caddr this)) (u8 PCA9685_MODE1) n raw ++ rest ->
  exists w st rest',
    rest = reg_write_events (u8 (_i2caddr this)) (u8 PCA9685_MODE1) w st ++ rest' /\
    Z.testbit w 4 = true /\
    Z.testbit w 7 = false /\
    forall i, i <> 4 -> i <> 7 -> Z.testbit w i = Z.testbit (u8 raw) i.
Proof.
  intros Hn Ht.
  destruct (setPWMFreq double this freq h) as [r t] eqn:Hrun.
  apply setPWMFreq_runs in Hrun. cbn [snd] in Ht. subst t.
  assert (Hbits : forall old,
    Z.testbit (Z.lor (Z.land (u8 old) 0x7F) 0x10) 4 = true /\
    Z.testbit (Z.lor (Z.land (u8 old) 0x7F) 0x10) 7 = false /\
    forall i, i <> 4 -> i <> 7 ->
      Z.testbit (Z.lor (Z.land (u8 old) 0x7F) 0x10) i = Z.testbit (u8 old) i).
  { intro old. repeat split.
    - rewrite sleep_value_bits. reflexivity.
    - rewrite sleep_value_bits. reflexivity.
    - intros i H4 H7. rewrite sleep_value_bits.
      apply Z.eqb_neq in H4, H7. rewrite H4, H7. reflexivity. }
  unfold reg_read_events in Hrun. cbn [app] in Hrun.
  inversion Hrun; subst; try congruence;
    eexists _, _, _; (split; [ reflexivity | apply Hbits ]).
Qed.

(** C5, with the prescale the code computes.  On a target whose [double] is
    binary32 or binary64, [setPWMFreq(1000)] computes the prescale 6, and a
    run in which every bus operation succeeds returns true after exactly:
    read MODE1, write MODE1 with sleep set, write PRESCALE with 6, write
    MODE1 with the value read, delay 5, write MODE1 with the value read
    OR 0xA0. *)
Theorem setPWMFreq_1000_prescale_6 (h : list Event) :
  double = binary32 \/ double = binary64 ->
  prescale_of double (of_int binary32 1000) = 6 /\
  setPWMFreq_1000_sequence double this 6 h.
Proof.
  intros Hd. split.
  { destruct Hd as [-> | ->]; vm_compute; reflexivity. }
  intros r t Hrun Hok.
  apply setPWMFreq_runs in Hrun. rewrite (prescale_of_1000 Hd) in Hrun.
  inversion Hrun; subst; unfold reg_read_events, reg_write_events in Hok;
    cbn [app] in Hok.
  all: repeat match goal with
       | H : Forall _ (_ :: _) |- _ => inversion H; clear H; subst
       end.
  all: cbn [succeeded] in *; try congruence.
  split; [ reflexivity | ].
  eexists _, _, _. split; [ | reflexivity ].
  rewrite sleep_value_bits. reflexivity.
Qed.

(** C6, as the code has it.  When [setPWMFreq] returns true, it began by
    reading a byte from MODE1 and the last value it wrote to MODE1 is that
    byte OR 0xA0, whose sleep bit (bit 4) is the sleep bit of the byte read:
    the chip is left running when it reported itself running. *)
Theorem setPWMFreq_last_mode_write (freq : spec_float) (h : list Event) (t : list Event) :
  setPWMFreq double this freq h = (true, t) ->
  exists n raw,
    n <> 0 /\
    firstn 6 t = reg_read_events (u8 (_i2caddr this)) (u8 PCA9685_MODE1) n raw /\
    last_reg_write (u8 PCA9685_MODE1) t = Some (Z.lor (u8 raw) 0xA0) /\
    Z.testbit (Z.lor (u8 raw) 0xA0) 4 = Z.testbit (u8 raw) 4.
Proof.
  intros Hrun. apply setPWMFreq_runs in Hrun.
  inversion Hrun as [ | | | | | | n raw Hn Hr Hlog ]; subst.
  exists n, raw. repeat split.
  - assumption.
  - unfold last_reg_write.
    cbn [reg_read_events reg_write_events app reg_writes rev filter fst snd].
    rewrite Z.eqb_refl. reflexivity.
  - rewrite Z.lor_spec. change (Z.testbit 0xA0 4) with false.
    apply orb_false_r.
Qed.
End Frequency.

Lemma halts_at_failure_split (r : bool) (t : list Event) :
  halts_at_failure r t ->
  forall pre e post,
    t = pre ++ e :: post ->
    ~ succeeded e -> r = false /\ post = [].
Proof.
  intros Hhalt pre. revert t Hhalt.
  induction pre as [ | e0 pre IH ]; intros t Hhalt e post -> He.
  - cbn in Hhalt. apply Hhalt, He.
  - apply (IH (pre ++ e :: post)) with (e := e); trivial.
    cbn in Hhalt. apply Hhalt.
Qed.

Lemma halts_at_failure_setPWMFreq (dev mode1 presc p : Z) (r : bool) (t : list Event) :
  setPWMFreq_run dev mode1 presc p r t -> halts_at_failure r t.
Proof.
  intros Hrun.
  destruct Hrun; cbn [halts_at_failure reg_read_events reg_write_events app succeeded];
    intuition congruence.
Qed.

Section Failure.
Context {hdr : Header}.
Variable double : float_format.
Variable this : PCA9685.

Lemma halts_at_failure_setPWM (num on off : Z) (h : list Event) :
  halts_at_failure (fst (setPWM this num on off h)) (snd (setPWM this num on off h)).
Proof.
  rewrite setPWM_run. unfold setPWM_bytes.
  cbn [fst snd app halts_at_failure succeeded].
  repeat (split; [ tauto | ]).
  split; [ | exact I ].
  intros Hst. apply Z.eqb_neq in Hst. rewrite Hst. split; reflexivity.
Qed.

(** C7.  In every public operation, a bus step that fails is the last thing
    the call does on the bus (no further register access, no delay), and the
    call returns false.  A failing step is a transmission that ends with a
    nonzero status (a register write, the address phase of a register read,
    the transmission of [setPWM]) or an [available] that reports no byte
    after a read request; so each of the five bus steps of [setPWMFreq],
    the read of MODE1 included, stops the remaining steps when it fails. *)
Theorem failed_bus_step_ends_call
    (c : Call) (h : list Event) (r : bool) (t pre : list Event)
    (e : Event) (post : list Event) :
  call double this c h = (r, t) ->
  t = pre ++ e :: post ->
  ~ succeeded e ->
  r = false /\ post = [].
Proof.
  intros Hrun Ht He.
  apply (halts_at_failure_split r t) with (pre := pre) (e := e); trivial.
  clear Ht He. revert Hrun.
  destruct c as [ | | freq | num on off | num val invert ]; cbn [call].
  - unfold begin, reset, write8. unfold_monad. norm_log.
    split_answer.
    + destruct (setPWMFreq double this (of_int binary32 1000) _)
        as [r2 t2] eqn:Hfreq.
      intros H; injection H as <- <-.
      apply setPWMFreq_runs, halts_at_failure_setPWMFreq in Hfreq.
      cbn [halts_at_failure succeeded].
      repeat (split; [ intuition congruence | ]). exact Hfreq.
    + intros H; injection H as <- <-.
      cbn [halts_at_failure succeeded]. intuition congruence.
  - unfold reset, write8. unfold_monad. norm_log.
    split_answer; intros H; injection H as <- <-;
      cbn [halts_at_failure succeeded]; intuition congruence.
  - intros Hrun. eapply halts_at_failure_setPWMFreq, setPWMFreq_runs, Hrun.
  - intros Hrun. pose proof (halts_at_failure_setPWM num on off h) as H.
    rewrite Hrun in H. exact H.
  - unfold setPin.
    match goal with
    | |- context [let '(on, off) := ?x in _] => destruct x as [on off]
    end.
    intros Hrun. pose proof (halts_at_failure_setPWM (u8 num) on off h) as H.
    rewrite Hrun in H. exact H.
Qed.
End Failure.

(** * Concrete runs

    The statements above at particular devices, with the register addresses
    of the data sheet and the chip at bus address 0x40. *)

(** C2 at channel 3, duty 1000. *)
Lemma setPin_plain_witness :
  0 <= 1000 <= 4095 /\
  setPin (hdr := datasheet_header) (PCA9685_new 0x40 (responsive_bus 0)) 3 1000 false [] =
  setPWM (hdr := datasheet_header) (PCA9685_new 0x40 (responsive_bus 0)) 3 0 1000 [].
Proof.
  split; [ lia | ].
  apply (setPin_plain (hdr := datasheet_header)
           (PCA9685_new 0x40 (responsive_bus 0)) 3 1000 []).
  lia.
Defined.

(** C3 at channel 3, duty 1000. *)
Lemma setPin_inverted_witness :
  0 <= 1000 <= 4095 /\
  setPin (hdr := datasheet_header) (PCA9685_new 0x40 (responsive_bus 0)) 3 1000 true [] =
  setPWM (hdr := datasheet_header) (PCA9685_new 0x40 (responsive_bus 0)) 3 0 3095 [].
Proof.
  split; [ lia | ].
  apply (setPin_inverted (hdr := datasheet_header)
           (PCA9685_new 0x40 (responsive_bus 0)) 3 1000 []).
  lia.
Defined.

(** C4 at duty 5000, inverted. *)
Lemma setPin_clamps_witness :
  4095 < 5000 <= 65535 /\
  setPin (hdr := datasheet_header) (PCA9685_new 0x40 (responsive_bus 0)) 3 5000 true [] =
  setPin (hdr := datasheet_header) (PCA9685_new 0x40 (responsive_bus 0)) 3 4095 true [].
Proof.
  split; [ lia | ].
  apply (setPin_clamps (hdr := datasheet_header)
           (PCA9685_new 0x40 (responsive_bus 0)) 3 5000 true []).
  lia.
Defined.

(** C10 at channel 200: the address byte is (6 + 800) mod 256 = 38. *)
Lemma setPWM_no_channel_check_witness :
  setPWM (hdr := datasheet_header) (PCA9685_new 0x40 (responsive_bus 0)) 200 0 2048 [] =
  (true,
   [EvBeginTransmission 64; EvWrite 38; EvWrite 0; EvWrite 0; EvWrite 0;
    EvWrite 8; EvEndTransmission true 0]).
Proof.
  apply (setPWM_no_channel_check (hdr := datasheet_header)
           (PCA9685_new 0x40 (responsive_bus 0)) 200 0 2048 []).
  lia.
Defined.

(** C8 at a device that acknowledges its address and delivers nothing. *)
Lemma read8_failure_keeps_output_witness :
  read8 (PCA9685_new 0x40 mute_bus) 0 (Some 7) [] =
  ((false, Some 7),
   [EvBeginTransmission 64; EvWrite 0; EvEndTransmission false 0;
    EvRequestFrom 64 1; EvAvailable 0]).
Proof.
  apply (proj1 (read8_failure_keeps_output
                  (PCA9685_new 0x40 mute_bus) 0 (Some 7) []));
    reflexivity.
Defined.

(** C7 at two devices.  One stops acknowledging while [setPWMFreq] writes
    the prescale register; the other acknowledges its address and delivers
    no byte to the read of MODE1.  Either call ends at the failing step and
    returns false. *)
Lemma failed_bus_step_ends_call_witness :
  (call (hdr := datasheet_header) binary64 (PCA9685_new 0x40 (fading_bus 12 0))
     (CallSetPWMFreq (of_int binary32 1000)) [] =
     (false,
      (reg_read_events 64 0 1 0 ++ reg_write_events 64 0 16 0 ++
       [EvBeginTransmission 64; EvWrite 254; EvWrite 6]) ++
      EvEndTransmission true 3 :: []) /\
   ~ succeeded (EvEndTransmission true 3) /\
   (false = false /\ @nil Event = [])) /\
  (call (hdr := datasheet_header) binary64 (PCA9685_new 0x40 mute_bus)
     (CallSetPWMFreq (of_int binary32 1000)) [] =
     (false,
      [EvBeginTransmission 64; EvWrite 0; EvEndTransmission false 0;
       EvRequestFrom 64 1] ++ EvAvailable 0 :: []) /\
   ~ succeeded (EvAvailable 0) /\
   (false = false /\ @nil Event = [])).
Proof.
  assert (Hwrite :
    call (hdr := datasheet_header) binary64 (PCA9685_new 0x40 (fading_bus 12 0))
      (CallSetPWMFreq (of_int binary32 1000)) [] =
      (false,
       (reg_read_events 64 0 1 0 ++ reg_write_events 64 0 16 0 ++
        [EvBeginTransmission 64; EvWrite 254; EvWrite 6]) ++
       EvEndTransmission true 3 :: []))
    by (vm_compute; reflexivity).
  assert (Hread :
    call (hdr := datasheet_header) binary64 (PCA9685_new 0x40 mute_bus)
      (CallSetPWMFreq (of_int binary32 1000)) [] =
      (false,
       [EvBeginTransmission 64; EvWrite 0; EvEndTransmission false 0;
        EvRequestFrom 64 1] ++ EvAvailable 0 :: []))
    by (vm_compute; reflexivity).
  assert (Hnack : ~ succeeded (EvEndTransmission true 3))
    by (cbn; discriminate).
  assert (Hnone : ~ succeeded (EvAvailable 0))
    by (cbn; intros H; apply H; reflexivity).
  split.
  - split; [ exact Hwrite | ]. split; [ exact Hnack | ].
    exact (failed_bus_step_ends_call (hdr := datasheet_header) binary64
             (PCA9685_new 0x40 (fading_bus 12 0))
             (CallSetPWMFreq (of_int binary32 1000)) [] false _ _ _ []
             Hwrite eq_refl Hnack).
  - split; [ exact Hread | ]. split; [ exact Hnone | ].
    exact (failed_bus_step_ends_call (hdr := datasheet_header) binary64
             (PCA9685_new 0x40 mute_bus)
             (CallSetPWMFreq (of_int binary32 1000)) [] false _ _ _ []
             Hread eq_refl Hnone).
Defined.

(** C1 at a chip that reports 0x21 in MODE1: the sleep write carries 0x31. *)
Lemma sleep_write_bits_witness :
  exists w st rest',
    skipn 6
      (snd (setPWMFreq (hdr := datasheet_header) binary64
              (PCA9685_new 0x40 (responsive_bus 0x21))
              (of_int binary32 1000) [])) =
      reg_write_events 64 0 w st ++ rest' /\
    Z.testbit w 4 = true /\
    Z.testbit w 7 = false /\
    forall i, i <> 4 -> i <> 7 -> Z.testbit w i = Z.testbit (u8 0x21) i.
Proof.
  apply (sleep_write_bits (hdr := datasheet_header) binary64
           (PCA9685_new 0x40 (responsive_bus 0x21))
           (of_int binary32 1000) [] 1 0x21).
  - discriminate.
  - vm_compute. reflexivity.
Defined.

(** C1 as the claim has it fails at a chip that reports 0x80 in MODE1: the
    byte read has bit 7 set, the sleep write carries 0x10, where bit 7 is
    clear. *)
Lemma sleep_write_clears_restart_bit :
  ~ sleep_write_keeps_every_other_bit (hdr := datasheet_header) binary64
      (PCA9685_new 0x40 (responsive_bus 0x80)) (of_int binary32 1000) [].
Proof.
  intros H.
  destruct (H 1 0x80
              (skipn 6
                 (snd (setPWMFreq (hdr := datasheet_header) binary64
                         (PCA9685_new 0x40 (responsive_bus 0x80))
                         (of_int binary32 1000) []))))
    as (w & st & rest' & Hrest & _ & Hbits).
  - discriminate.
  - vm_compute. reflexivity.
  - vm_compute in Hrest. injection Hrest; intros; subst.
    specialize (Hbits 7 ltac:(discriminate)).
    vm_compute in Hbits. discriminate Hbits.
Qed.

(** C5 at a chip in its running state (MODE1 reads 0x00), [double] being
    binary64: every bus operation succeeds and the log is the sequence with
    prescale 6. *)
Lemma setPWMFreq_1000_prescale_6_witness :
  let run :=
    setPWMFreq (hdr := datasheet_header) binary64
      (PCA9685_new 0x40 (responsive_bus 0)) (of_int binary32 1000) [] in
  Forall succeeded (snd run) /\
  fst run = true /\
  exists n raw w,
    Z.testbit w 4 = true /\
    snd run =
      reg_read_events 64 0 n raw ++
      reg_write_events 64 0 w 0 ++
      reg_write_events 64 254 6 0 ++
      reg_write_events 64 0 (u8 raw) 0 ++
      EvDelay 5 :: reg_write_events 64 0 (Z.lor (u8 raw) 0xA0) 0.
Proof.
  intros run.
  assert (Hok : Forall succeeded (snd run)).
  { vm_compute. repeat (apply Forall_cons || apply Forall_nil);
      first [ exact I | reflexivity | discriminate ]. }
  split; [ exact Hok | ].
  destruct (setPWMFreq_1000_prescale_6 (hdr := datasheet_header) binary64
              (PCA9685_new 0x40 (responsive_bus 0)) []
              (or_intror eq_refl)) as [_ Hseq].
  apply (Hseq (fst run) (snd run)); [ | exact Hok ].
  apply surjective_pairing.
Defined.

(** C5 as the claim has it fails: the prescale computed for 1000 Hz is not 7
    with either format of [double], and on a chip where every bus operation
    succeeds the log is not the sequence with prescale 7. *)
Lemma setPWMFreq_1000_prescale_not_7 :
  prescale_of binary32 (of_int binary32 1000) <> 7 /\
  prescale_of binary64 (of_int binary32 1000) <> 7 /\
  ~ setPWMFreq_1000_sequence (hdr := datasheet_header) binary64
      (PCA9685_new 0x40 (responsive_bus 0)) 7 [].
Proof.
  split; [ vm_compute; discriminate | ].
  split; [ vm_compute; discriminate | ].
  intros H.
  destruct (H (fst (setPWMFreq (hdr := datasheet_header) binary64
                      (PCA9685_new 0x40 (responsive_bus 0))
                      (of_int binary32 1000) []))
              (snd (setPWMFreq (hdr := datasheet_header) binary64
                      (PCA9685_new 0x40 (responsive_bus 0))
                      (of_int binary32 1000) [])))
    as [_ (n & raw & w & _ & Ht)].
  - vm_compute. reflexivity.
  - vm_compute. repeat (apply Forall_cons || apply Forall_nil);
      first [ exact I | reflexivity | discriminate ].
  - vm_compute in Ht. discriminate Ht.
Qed.

(** C6 at a chip that reports 0x01 in MODE1 (running): the last write to
    MODE1 carries 0xA1. *)
Lemma setPWMFreq_last_mode_write_witness :
  exists n raw,
    n <> 0 /\
    firstn 6
      (snd (setPWMFreq (hdr := datasheet_header) binary64
              (PCA9685_new 0x40 (responsive_bus 0x01))
              (of_int binary32 1000) [])) =
      reg_read_events 64 0 n raw /\
    last_reg_write 0
      (snd (setPWMFreq (hdr := datasheet_header) binary64
              (PCA9685_new 0x40 (responsive_bus 0x01))
              (of_int binary32 1000) [])) =
      Some (Z.lor (u8 raw) 0xA0) /\
    Z.testbit (Z.lor (u8 raw) 0xA0) 4 = Z.testbit (u8 raw) 4.
Proof.
  apply (setPWMFreq_last_mode_write (hdr := datasheet_header) binary64
           (PCA9685_new 0x40 (responsive_bus 0x01))
           (of_int binary32 1000) []).
  vm_compute. reflexivity.
Defined.

(** C6 as the claim has it fails at a chip that reports 0x11 in MODE1 (its
    state after power-up, asleep): [setPWMFreq] returns true and the last
    value written to MODE1 is 0xB1, sleep bit set. *)
Lemma sleeping_chip_is_left_asleep :
  ~ setPWMFreq_leaves_sleep_clear (hdr := datasheet_header) binary64
      (PCA9685_new 0x40 (responsive_bus 0x11)) (of_int binary32 1000) [].
Proof.
  intros H.
  destruct (H (snd (setPWMFreq (hdr := datasheet_header) binary64
                      (PCA9685_new 0x40 (responsive_bus 0x11))
                      (of_int binary32 1000) [])))
    as (w & Hw & Hbit).
  - vm_compute. reflexivity.
  - vm_compute in Hw. injection Hw as <-.
    vm_compute in Hbit. discriminate Hbit.
Qed.

(** * Further properties of the driver *)

(** Takes apart what is known of the success of the events of a log. *)
Ltac split_succeeded :=
  repeat match goal with
         | H : Forall _ (_ :: _) |- _ => inversion H; clear H; subst
         end;
  cbn [succeeded] in *.

(** Shows that the events of a log succeeded, from what is known of the
    bus's answers. *)
Ltac show_succeeded :=
  repeat (apply Forall_cons || apply Forall_nil);
  cbn [succeeded]; first [ exact I | reflexivity | assumption ].

Lemma setPWMFreq_run_succeeded (dev mode1 presc p : Z) (r : bool) (t : list Event) :
  setPWMFreq_run dev mode1 presc p r t ->
  r = true <-> Forall succeeded t.
Proof.
  intros Hrun.
  destruct Hrun; unfold reg_read_events, reg_write_events; cbn [app];
    (split; [ intros Hr; try discriminate Hr; show_succeeded
            | intros Hok; split_succeeded; congruence ]).
Qed.

Section Outcome.
Context {hdr : Header}.
Variable double : float_format.
Variable this : PCA9685.

Lemma setPWM_succeeded (num on off : Z) (h : list Event) :
  fst (setPWM this num on off h) = true <->
  Forall succeeded (snd (setPWM this num on off h)).
Proof.
  rewrite setPWM_run. unfold setPWM_bytes. cbn [fst snd app].
  split.
  - intros Hst. apply Z.eqb_eq in Hst. show_succeeded.
  - intros Hok. split_succeeded. now apply Z.eqb_eq.
Qed.

(** X1.  A public operation returns true exactly when every bus operation
    of the call succeeded: each transmission ended with status 0 and each
    [available] reported a byte. *)
Theorem call_true_iff_all_succeeded (c : Call) (h : list Event) (r : bool) (t : list Event) :
  call double this c h = (r, t) ->
  r = true <-> Forall succeeded t.
Proof.
  destruct c as [ | | freq | num on off | num val invert ]; cbn [call].
  - unfold begin, reset, write8. unfold_monad. norm_log.
    split_answer.
    + destruct (setPWMFreq double this (of_int binary32 1000) _)
        as [r2 t2] eqn:Hfreq.
      intros H; injection H as <- <-.
      apply setPWMFreq_runs, setPWMFreq_run_succeeded in Hfreq.
      rewrite Hfreq. split.
      * intros Hok. show_succeeded.
      * intros Hok. split_succeeded. assumption.
    + intros H; injection H as <- <-. split.
      * discriminate.
      * intros Hok. split_succeeded. congruence.
  - unfold reset, write8. unfold_monad. norm_log.
    split_answer; intros H; injection H as <- <-.
    + split; [ intros _; show_succeeded | reflexivity ].
    + split; [ discriminate | intros Hok; split_succeeded; congruence ].
  - intros Hrun.
    eapply setPWMFreq_run_succeeded, setPWMFreq_runs, Hrun.
  - intros Hrun. pose proof (setPWM_succeeded num on off h) as H.
    rewrite Hrun in H. exact H.
  - unfold setPin.
    match goal with
    | |- context [let '(on, off) := ?x in _] => destruct x as [on off]
    end.
    intros Hrun. pose proof (setPWM_succeeded (u8 num) on off h) as H.
    rewrite Hrun in H. exact H.
Qed.

(** X2.  On a target whose [double] is binary32 or binary64, a [begin] in
    which every bus operation succeeds returns true after exactly: write
    0x80 to MODE1, delay 10, then the sequence of [setPWMFreq(1000)] with
    prescale 6. *)
Theorem begin_all_acknowledged (h : list Event) (r : bool) (t : list Event) :
  double = binary32 \/ double = binary64 ->
  begin double this h = (r, t) ->
  Forall succeeded t ->
  let dev := u8 (_i2caddr this) in
  let mode1 := u8 PCA9685_MODE1 in
  r = true /\
  exists n raw,
    t = reg_write_events dev mode1 0x80 0 ++
        EvDelay 10 ::
        reg_read_events dev mode1 n raw ++
        reg_write_events dev mode1 (Z.lor (Z.land (u8 raw) 0x7F) 0x10) 0 ++
        reg_write_events dev (u8 PCA9685_PRESCALE) 6 0 ++
        reg_write_events dev mode1 (u8 raw) 0 ++
        EvDelay 5 ::
        reg_write_events dev mode1 (Z.lor (u8 raw) 0xA0) 0.
Proof.
  intros Hd. unfold begin, reset, write8. unfold_monad. norm_log.
  rewrite !u8_idem. change (u8 128) with 128.
  split_answer.
  - destruct (setPWMFreq double this (of_int binary32 1000) _)
      as [r2 t2] eqn:Hfreq.
    intros H; injection H as <- <-. intros Hok.
    apply setPWMFreq_runs in Hfreq. rewrite (prescale_of_1000 double Hd) in Hfreq.
    inversion Hfreq; subst;
      unfold reg_read_events, reg_write_events in Hok; cbn [app] in Hok;
      split_succeeded; try congruence.
    split; [ reflexivity | ]. eexists _, _. reflexivity.
  - intros H; injection H as <- <-. intros Hok.
    split_succeeded. congruence.
Qed.

(** X3.  When the transmission of [reset] inside [begin] is not
    acknowledged, [begin] returns false and its log is that one register
    write: nothing of [setPWMFreq] is attempted. *)
Theorem begin_stops_after_failed_reset (h : list Event) :
  let dev := u8 (_i2caddr this) in
  let mode1 := u8 PCA9685_MODE1 in
  let st :=
    endTransmission_status (_i2cBus this)
      (h ++ [EvBeginTransmission dev; EvWrite mode1; EvWrite 0x80]) true in
  st <> 0 ->
  begin double this h = (false, reg_write_events dev mode1 0x80 st).
Proof.
  intros dev mode1 st Hst.
  unfold begin, reset, write8. unfold_monad. norm_log.
  rewrite !u8_idem. change (u8 128) with 128. fold dev mode1 st.
  apply Z.eqb_neq in Hst. rewrite Hst. reflexivity.
Qed.
End Outcome.

Section ReadPrimitive.
Variable this : PCA9685.

(** X4.  When the address phase of [read8] is acknowledged and [available]
    reports a byte, [read8] returns true, its log is one complete register
    read, and a non-null output location holds the value read reduced to a
    byte (0..255); a null one stays null. *)
Theorem read8_delivers_byte (addr : Z) (p : out_ptr) (h : list Event) :
  let dev := u8 (_i2caddr this) in
  let sent := [EvBeginTransmission dev; EvWrite (u8 addr)] in
  let asked := [EvEndTransmission false 0; EvRequestFrom dev 1] in
  let n := available_count (_i2cBus this) (h ++ sent ++ asked) in
  let raw := read_value (_i2cBus this) (h ++ sent ++ asked ++ [EvAvailable n]) in
  endTransmission_status (_i2cBus this) (h ++ sent) false = 0 ->
  n <> 0 ->
  read8 this addr p h =
    ((true, store p (raw mod 256)), reg_read_events dev (u8 addr) n raw) /\
  0 <= raw mod 256 < 256.
Proof.
  intros dev sent asked n raw Hst Hn.
  split; [ | apply u8_range ].
  unfold read8. unfold_monad.
  rewrite !u8_idem. change (u8 1) with 1. norm_log. fold dev.
  subst sent asked. cbn [app] in *.
  rewrite Hst. change (0 =? 0) with true.
  cbv beta iota zeta delta [negb]. norm_log. fold n.
  apply Z.eqb_neq in Hn. rewrite Hn. norm_log. fold raw.
  destruct p; reflexivity.
Qed.

(** X5.  [read8] accepts a null output pointer: its result and its bus
    traffic are those of the call with a location, and nothing is stored. *)
Theorem read8_null_pointer (addr : Z) (p : out_ptr) (h : list Event) :
  fst (fst (read8 this addr None h)) = fst (fst (read8 this addr p h)) /\
  snd (read8 this addr None h) = snd (read8 this addr p h) /\
  snd (fst (read8 this addr None h)) = None.
Proof.
  unfold read8. unfold_monad. norm_log.
  repeat split_answer; cbn [fst snd]; repeat split; reflexivity.
Qed.
End ReadPrimitive.

Lemma little_endian_u16 (x : Z) :
  0 <= x <= 65535 ->
  u8 x + 256 * u8 (Z.shiftr (u16 x) 8) = x.
Proof.
  intros Hx. rewrite (u16_small x) by lia.
  rewrite Z.shiftr_div_pow2 by lia. change (2 ^ 8) with 256.
  assert (0 <= x / 256 < 256)
    by (split; [ apply Z.div_pos | apply Z.div_lt_upper_bound ]; lia).
  rewrite (u8_small (x / 256)) by assumption.
  unfold u8. pose proof (Z.div_mod x 256). lia.
Qed.

Lemma channel_address_u8 (base num : Z) :
  (base + 4 * u8 num) mod 256 = (base + 4 * num) mod 256.
Proof.
  unfold u8. rewrite (Z.mod_eq num 256) by lia.
  replace (base + 4 * (num - 256 * (num / 256)))
    with (base + 4 * num + (- 4 * (num / 256)) * 256) by lia.
  apply Z.mod_add. lia.
Qed.

Section Ticks.
Context {hdr : Header}.
Variable this : PCA9685.

Lemma setPWM_decoded (num on off : Z) (h : list Event) :
  0 <= on <= 65535 -> 0 <= off <= 65535 ->
  decode_setPWM (snd (setPWM this num on off h)) =
    Some ((LED0_ON_L + 4 * num) mod 256, on, off).
Proof.
  intros Hon Hoff. rewrite setPWM_run. unfold setPWM_bytes.
  cbn [snd app decode_setPWM].
  rewrite !little_endian_u16 by assumption.
  rewrite channel_address_u8. reflexivity.
Qed.

(** X6.  The five bytes [setPWM] sends carry its arguments: read back low
    byte first, they give the register [LED0_ON_L + 4*num] (modulo 256) and
    the ticks [on] and [off] unchanged, for every tick of 0..65535, the
    value 4096 included. *)
Theorem setPWM_bytes_round_trip (num on off : Z) (h : list Event) :
  0 <= on <= 65535 -> 0 <= off <= 65535 ->
  decode_setPWM (snd (setPWM this num on off h)) =
    Some ((LED0_ON_L + 4 * num) mod 256, on, off).
Proof. apply setPWM_decoded. Qed.

(** X7.  Whatever the duty value and the inversion, the ticks [setPin] puts
    on the wire are either on=4096, off=0 (fully on) or on=0 with off in
    1..4096: never on=4096 together with off=4096, never on=0 with off=0. *)
Theorem setPin_ticks_invariant (num val : Z) (invert : bool) (h : list Event) :
  exists on off,
    decode_setPWM (snd (setPin this num val invert h)) =
      Some ((LED0_ON_L + 4 * num) mod 256, on, off) /\
    (on = 4096 /\ off = 0 \/ on = 0 /\ 1 <= off <= 4096).
Proof.
  unfold setPin.
  assert (Hclamp : 0 <= min (u16 val) (u16 4095) <= 4095).
  { unfold min. change (u16 4095) with 4095.
    pose proof (Z.mod_pos_bound val 65536) as Hb. fold (u16 val) in Hb.
    destruct (Z.ltb_spec (u16 val) 4095); lia. }
  revert Hclamp. generalize (min (u16 val) (u16 4095)) as v. intros v Hv.
  assert (Hreg : forall on off,
    0 <= on <= 65535 -> 0 <= off <= 65535 ->
    decode_setPWM (snd (setPWM this (u8 num) on off h)) =
      Some ((LED0_ON_L + 4 * num) mod 256, on, off)).
  { intros on off Hon Hoff. rewrite setPWM_decoded by assumption.
    rewrite channel_address_u8. reflexivity. }
  destruct invert;
    destruct (Z.eqb_spec v 0) as [H0 | H0];
    destruct (Z.eqb_spec v 4095) as [H4095 | H4095];
    try rewrite (u16_small (4095 - v)) by lia;
    eexists _, _; (split; [ apply Hreg; lia | lia ]).
Qed.

(** X8.  Inverting is complementing: for a duty value of 0..4095, [setPin]
    with [invert] set does exactly what [setPin] without it does for
    4095 minus the value. *)
Theorem setPin_invert_is_complement (num val : Z) (h : list Event) :
  0 <= val <= 4095 ->
  setPin this num val true h = setPin this num (4095 - val) false h.
Proof.
  intros Hval. unfold setPin.
  rewrite (u16_small val), (u16_small (4095 - val)) by lia.
  change (u16 4095) with 4095. unfold min.
  destruct (Z.ltb_spec val 4095) as [Hlt | Hge].
  - destruct (Z.ltb_spec (4095 - val) 4095) as [Hlt' | Hge'].
    + destruct (Z.eqb_spec val 0); [ lia | ].
      destruct (Z.eqb_spec val 4095); [ lia | ].
      destruct (Z.eqb_spec (4095 - val) 4095); [ lia | ].
      destruct (Z.eqb_spec (4095 - val) 0); [ lia | ].
      rewrite (u16_small (4095 - val)) by lia. reflexivity.
    + assert (val = 0) as -> by lia. reflexivity.
  - assert (val = 4095) as -> by lia. reflexivity.
Qed.

(** X9.  Channel numbers 64 apart address the same register: with no range
    check and the address reduced modulo 256, [setPWM] for [num + 64] is
    [setPWM] for [num]. *)
Theorem setPWM_channel_alias (num on off : Z) (h : list Event) :
  setPWM this (num + 64) on off h = setPWM this num on off h.
Proof.
  rewrite !setPWM_run.
  assert (Hb : setPWM_bytes (u8 (num + 64)) on off = setPWM_bytes (u8 num) on off).
  { unfold setPWM_bytes. rewrite !channel_address_u8.
    replace (LED0_ON_L + 4 * (num + 64)) with (LED0_ON_L + 4 * num + 1 * 256)
      by lia.
    rewrite Z.mod_add by lia. reflexivity. }
  rewrite Hb. reflexivity.
Qed.
End Ticks.

Lemma all_from_spec (p : Z -> bool) (n : nat) :
  forall lo f,
    all_from p lo n = true -> lo <= f < lo + Z.of_nat n -> p f = true.
Proof.
  induction n as [ | k IH ]; intros lo f Hall Hf.
  - cbn in Hf. lia.
  - cbn [all_from] in Hall. apply andb_prop in Hall as [Hlo Hrest].
    destruct (Z.eq_dec f lo) as [-> | Hne]; [ exact Hlo | ].
    apply (IH (lo + 1)); [ exact Hrest | lia ].
Qed.

Lemma prescale_exact_binary32 :
  all_from (prescale_exact_at binary32) 27 (Z.to_nat 1974) = true.
Proof. vm_compute. reflexivity. Qed.

Lemma prescale_exact_binary64 :
  all_from (prescale_exact_at binary64) 27 (Z.to_nat 1974) = true.
Proof. vm_compute. reflexivity. Qed.

Lemma rounded_prescale_steps :
  all_from rounded_prescale_step 27 (Z.to_nat 1973) = true.
Proof. vm_compute. reflexivity. Qed.

Lemma prescale_exact_in_range (double : float_format) (f : Z) :
  double = binary32 \/ double = binary64 ->
  27 <= f <= 2000 ->
  prescale_exact_at double f = true.
Proof.
  intros [-> | ->] Hf.
  - apply (all_from_spec _ _ 27 f prescale_exact_binary32).
    rewrite Z2Nat.id; lia.
  - apply (all_from_spec _ _ 27 f prescale_exact_binary64).
    rewrite Z2Nat.id; lia.
Qed.

Lemma rounded_prescale_antitone (f g : Z) :
  27 <= f -> f <= g -> g <= 2000 ->
  rounded_prescale g <= rounded_prescale f.
Proof.
  intros Hf Hfg. revert g Hfg.
  apply (Zlt_lower_bound_ind
           (fun g => g <= 2000 -> rounded_prescale g <= rounded_prescale f) f).
  intros g IH Hfg Hg.
  destruct (Z.eq_dec g f) as [-> | Hne]; [ lia | ].
  assert (Hstep : rounded_prescale_step (g - 1) = true).
  { apply (all_from_spec _ _ 27 (g - 1) rounded_prescale_steps).
    rewrite Z2Nat.id; lia. }
  unfold rounded_prescale_step in Hstep. apply Z.leb_le in Hstep.
  replace (g - 1 + 1) with g in Hstep by lia.
  specialize (IH (g - 1)). lia.
Qed.

(** X10.  For every integer frequency of 27..2000 Hz, on a target whose
    [double] is binary32 or binary64, the floating-point arithmetic of
    [setPWMFreq] gives exactly the prescale of the formula evaluated without
    rounding error, 25000000/4096/(0.9 f) - 1 rounded by adding one half
    and truncating; the value fits the prescale byte (it is in 2..250). *)
Theorem prescale_of_integer_frequency (double : float_format) (f : Z) :
  double = binary32 \/ double = binary64 ->
  27 <= f <= 2000 ->
  prescale_of double (to_format binary32 (of_int binary32 f)) =
    rounded_prescale f /\
  2 <= rounded_prescale f <= 250.
Proof.
  intros Hd Hf. pose proof (prescale_exact_in_range double f Hd Hf) as H.
  unfold prescale_exact_at in H.
  apply andb_prop in H as [H Hhi]. apply andb_prop in H as [Heq Hlo].
  apply Z.eqb_eq in Heq. apply Z.leb_le in Hlo, Hhi.
  split; [ exact Heq | lia ].
Qed.

(** X11.  Over the integer frequencies of 27..2000 Hz, a higher frequency
    never gets a larger prescale. *)
Theorem prescale_of_antitone (double : float_format) (f g : Z) :
  double = binary32 \/ double = binary64 ->
  27 <= f -> f <= g -> g <= 2000 ->
  prescale_of double (to_format binary32 (of_int binary32 g)) <=
  prescale_of double (to_format binary32 (of_int binary32 f)).
Proof.
  intros Hd Hf Hfg Hg.
  pose proof (prescale_exact_in_range double f Hd ltac:(lia)) as Hef.
  pose proof (prescale_exact_in_range double g Hd ltac:(lia)) as Heg.
  unfold prescale_exact_at in Hef, Heg.
  apply andb_prop in Hef as [Hef _]. apply andb_prop in Hef as [Hef _].
  apply andb_prop in Heg as [Heg _]. apply andb_prop in Heg as [Heg _].
  apply Z.eqb_eq in Hef, Heg. rewrite Hef, Heg.
  now apply rounded_prescale_antitone.
Qed.

Lemma byte_of_fixed (x : Z) : u8 x = x -> 0 <= x < 256.
Proof. intros <-. apply u8_range. Qed.

(** Shows that the events of a log concern the device only. *)
Ltac show_own_traffic :=
  repeat (apply Forall_cons || apply Forall_nil);
  cbn [own_traffic];
  first [ exact I | reflexivity | split; reflexivity | assumption
        | apply u8_range | apply Z.mod_pos_bound; lia
        | apply byte_of_fixed, u8_sleep_value
        | apply byte_of_fixed, u8_autoincrement_value
        | lia ].

Lemma setPWMFreq_run_own_traffic (dev mode1 presc p : Z) (r : bool) (t : list Event) :
  0 <= mode1 < 256 -> 0 <= presc < 256 -> 0 <= p < 256 ->
  setPWMFreq_run dev mode1 presc p r t ->
  Forall (own_traffic dev) t.
Proof.
  intros Hm Hp Hb Hrun.
  destruct Hrun; unfold reg_read_events, reg_write_events; cbn [app];
    show_own_traffic.
Qed.

Lemma setPWMFreq_run_delay (dev mode1 presc p : Z) (r : bool) (t : list Event) :
  setPWMFreq_run dev mode1 presc p r t ->
  0 <= total_delay t <= 5 /\ (r = true -> total_delay t = 5).
Proof.
  intros Hrun.
  destruct Hrun; unfold reg_read_events, reg_write_events;
    cbn [app total_delay]; (split; [ lia | intros Hr; try discriminate Hr; lia ]).
Qed.

Section Discipline.
Context {hdr : Header}.
Variable double : float_format.
Variable this : PCA9685.

Lemma setPWM_own_traffic (num on off : Z) (h : list Event) :
  Forall (own_traffic (u8 (_i2caddr this))) (snd (setPWM this num on off h)).
Proof.
  rewrite setPWM_run. unfold setPWM_bytes. cbn [snd app]. show_own_traffic.
Qed.

(** X12.  A public operation talks to its own device only: every
    transmission it starts and every request it makes carries the address
    given at construction (as a byte), a request asks for one byte, and
    every value it writes to the bus is a byte. *)
Theorem call_own_traffic (c : Call) (h : list Event) (r : bool) (t : list Event) :
  call double this c h = (r, t) ->
  Forall (own_traffic (u8 (_i2caddr this))) t.
Proof.
  assert (Hfreq : forall freq h' r' t',
    setPWMFreq double this freq h' = (r', t') ->
    Forall (own_traffic (u8 (_i2caddr this))) t').
  { intros freq h' r' t' Hrun. apply setPWMFreq_runs in Hrun.
    eapply setPWMFreq_run_own_traffic; [ | | | exact Hrun ];
      try apply u8_range.
    apply byte_of_fixed, float_to_uint8_byte. }
  destruct c as [ | | freq | num on off | num val invert ]; cbn [call].
  - unfold begin, reset, write8. unfold_monad. norm_log.
    rewrite !u8_idem.
    split_answer.
    + destruct (setPWMFreq double this (of_int binary32 1000) _)
        as [r2 t2] eqn:Hrun.
      intros H; injection H as <- <-. apply Hfreq in Hrun.
      repeat (apply Forall_cons; [ cbn [own_traffic]; first
        [ exact I | reflexivity | apply u8_range ] | ]).
      exact Hrun.
    + intros H; injection H as <- <-. show_own_traffic.
  - unfold reset, write8. unfold_monad. norm_log. rewrite !u8_idem.
    split_answer; intros H; injection H as <- <-; show_own_traffic.
  - apply Hfreq.
  - intros Hrun. pose proof (setPWM_own_traffic num on off h) as H.
    rewrite Hrun in H. exact H.
  - unfold setPin.
    match goal with
    | |- context [let '(on, off) := ?x in _] => destruct x as [on off]
    end.
    intros Hrun. pose proof (setPWM_own_traffic (u8 num) on off h) as H.
    rewrite Hrun in H. exact H.
Qed.

(** X13.  The time a public operation spends in [delay] never exceeds 15 ms
    for [begin], 10 ms for [reset], 5 ms for [setPWMFreq], and is zero for
    [setPWM] and [setPin]; a call that returns true has spent exactly that
    time. *)
Theorem call_delay_budget (c : Call) (h : list Event) (r : bool) (t : list Event) :
  call double this c h = (r, t) ->
  0 <= total_delay t <= delay_budget c /\
  (r = true -> total_delay t = delay_budget c).
Proof.
  assert (Hpwm : forall num on off,
    total_delay (snd (setPWM this num on off h)) = 0).
  { intros num on off. rewrite setPWM_run. reflexivity. }
  destruct c as [ | | freq | num on off | num val invert ];
    cbn [call delay_budget].
  - unfold begin, reset, write8. unfold_monad. norm_log.
    split_answer.
    + destruct (setPWMFreq double this (of_int binary32 1000) _)
        as [r2 t2] eqn:Hrun.
      intros H; injection H as <- <-.
      apply setPWMFreq_runs, setPWMFreq_run_delay in Hrun.
      cbn [total_delay]. destruct Hrun as [Hle Heq].
      split; [ lia | intros Hr; specialize (Heq Hr); lia ].
    + intros H; injection H as <- <-. cbn [total_delay].
      split; [ lia | discriminate ].
  - unfold reset, write8. unfold_monad. norm_log.
    split_answer; intros H; injection H as <- <-; cbn [total_delay];
      (split; [ lia | intros Hr; try discriminate Hr; lia ]).
  - intros Hrun. eapply setPWMFreq_run_delay, setPWMFreq_runs, Hrun.
  - intros Hrun. specialize (Hpwm num on off). rewrite Hrun in Hpwm.
    cbn [snd] in Hpwm. rewrite Hpwm. split; [ lia | reflexivity ].
  - unfold setPin.
    match goal with
    | |- context [let '(on, off) := ?x in _] => destruct x as [on off]
    end.
    intros Hrun. specialize (Hpwm (u8 num) on off). rewrite Hrun in Hpwm.
    cbn [snd] in Hpwm. rewrite Hpwm. split; [ lia | reflexivity ].
Qed.

(** X14.  The register writes of [setPWMFreq] come in one fixed order and
    stop at the first that fails.  When the read of MODE1 fails (its address
    phase is refused, or no byte is available) the call returns false and
    the log is that failed read, with no register write.  Otherwise, with
    [raw] the byte read, the log holds the first [k] (one to four) of:
    MODE1 with sleep set, PRESCALE with the prescale byte, MODE1 with the
    byte read, MODE1 with the byte read OR 0xA0; all but the last of them
    ended with status 0; the call returns true exactly when the last one did
    too, and then all four were made.  So a refused write is the last, an
    acknowledged one is followed by the next, and PRESCALE is written only
    after an acknowledged sleep write. *)
Theorem setPWMFreq_write_order (freq : spec_float) (h : list Event) (r : bool) (t : list Event) :
  setPWMFreq double this freq h = (r, t) ->
  (r = false /\
   ((exists st, st <> 0 /\
       t = [EvBeginTransmission (u8 (_i2caddr this)); EvWrite (u8 PCA9685_MODE1);
            EvEndTransmission false st]) \/
    t = [EvBeginTransmission (u8 (_i2caddr this)); EvWrite (u8 PCA9685_MODE1);
         EvEndTransmission false 0; EvRequestFrom (u8 (_i2caddr this)) 1;
         EvAvailable 0]) /\
   reg_write_log t = [])
  \/
  exists n raw k st,
    n <> 0 /\
    firstn 6 t = reg_read_events (u8 (_i2caddr this)) (u8 PCA9685_MODE1) n raw /\
    (1 <= k <= 4)%nat /\
    reg_write_log t =
      with_status 0
        (firstn (k - 1)
           (setPWMFreq_writes (u8 raw)
              (prescale_of double (to_format binary32 freq)))) ++
      with_status st
        (firstn 1
           (skipn (k - 1)
              (setPWMFreq_writes (u8 raw)
                 (prescale_of double (to_format binary32 freq))))) /\
    (r = true <-> st = 0) /\
    (st = 0 -> k = 4%nat).
Proof.
  intros Hrun. apply setPWMFreq_runs in Hrun.
  destruct Hrun as
    [ st Hst | | n raw st Hn Hst | n raw st Hn Hst | n raw st Hn Hst
    | n raw st Hn Hst | n raw Hn ].
  - left. split; [ reflexivity | ]. split; [ | reflexivity ].
    left. exists st. split; [ exact Hst | reflexivity ].
  - left. split; [ reflexivity | ]. split; [ | reflexivity ].
    right. reflexivity.
  - right. exists n, raw, 1%nat, st.
    split; [ exact Hn | ]. split; [ reflexivity | ].
    split; [ lia | ]. split; [ reflexivity | ].
    split; [ split; [ discriminate | contradiction ] | contradiction ].
  - right. exists n, raw, 2%nat, st.
    split; [ exact Hn | ]. split; [ reflexivity | ].
    split; [ lia | ]. split; [ reflexivity | ].
    split; [ split; [ discriminate | contradiction ] | contradiction ].
  - right. exists n, raw, 3%nat, st.
    split; [ exact Hn | ]. split; [ reflexivity | ].
    split; [ lia | ]. split; [ reflexivity | ].
    split; [ split; [ discriminate | contradiction ] | contradiction ].
  - right. exists n, raw, 4%nat, st.
    split; [ exact Hn | ]. split; [ reflexivity | ].
    split; [ lia | ]. split; [ reflexivity | ].
    split; [ split; [ discriminate | contradiction ] | contradiction ].
  - right. exists n, raw, 4%nat, 0.
    split; [ exact Hn | ]. split; [ reflexivity | ].
    split; [ lia | ]. split; [ reflexivity | ].
    split; [ split; reflexivity | reflexivity ].
Qed.
End Discipline.

(** * Concrete runs of the further properties *)

(** X1 at [begin] on a device that answers everything. *)
Lemma call_true_iff_all_succeeded_witness :
  Forall succeeded
    (snd (call (hdr := datasheet_header) binary64
            (PCA9685_new 0x40 (responsive_bus 0)) CallBegin [])).
Proof.
  refine (proj1 (call_true_iff_all_succeeded (hdr := datasheet_header) binary64
                   (PCA9685_new 0x40 (responsive_bus 0)) CallBegin [] true _ _)
                eq_refl).
  vm_compute. reflexivity.
Defined.

(** X2 on an AVR target ([double] is binary32) and a running chip. *)
Lemma begin_all_acknowledged_witness :
  let run :=
    begin (hdr := datasheet_header) binary32
      (PCA9685_new 0x40 (responsive_bus 0)) [] in
  fst run = true /\
  exists n raw,
    snd run =
      reg_write_events 64 0 0x80 0 ++
      EvDelay 10 ::
      reg_read_events 64 0 n raw ++
      reg_write_events 64 0 (Z.lor (Z.land (u8 raw) 0x7F) 0x10) 0 ++
      reg_write_events 64 254 6 0 ++
      reg_write_events 64 0 (u8 raw) 0 ++
      EvDelay 5 :: reg_write_events 64 0 (Z.lor (u8 raw) 0xA0) 0.
Proof.
  intros run.
  apply (begin_all_acknowledged (hdr := datasheet_header) binary32
           (PCA9685_new 0x40 (responsive_bus 0)) [] (fst run) (snd run)).
  - left. reflexivity.
  - apply surjective_pairing.
  - vm_compute. repeat (apply Forall_cons || apply Forall_nil);
      first [ exact I | reflexivity | discriminate ].
Defined.

(** X3 at a device that acknowledges nothing. *)
Lemma begin_stops_after_failed_reset_witness :
  begin (hdr := datasheet_header) binary64
    (PCA9685_new 0x40 (fading_bus 0 0)) [] =
  (false, reg_write_events 64 0 0x80 3).
Proof.
  apply (begin_stops_after_failed_reset (hdr := datasheet_header) binary64
           (PCA9685_new 0x40 (fading_bus 0 0)) []).
  discriminate.
Defined.

(** X4 at a device whose [read] gives -1 although a byte was announced: the
    location receives 255. *)
Lemma read8_delivers_byte_witness :
  read8 (PCA9685_new 0x40 (responsive_bus (-1))) 0 (Some 7) [] =
    ((true, Some 255), reg_read_events 64 0 1 (-1)) /\
  0 <= 255 < 256.
Proof.
  apply (read8_delivers_byte (PCA9685_new 0x40 (responsive_bus (-1))) 0
           (Some 7) []).
  - reflexivity.
  - discriminate.
Defined.

(** X6 at channel 3 with the fully-on pair. *)
Lemma setPWM_bytes_round_trip_witness :
  decode_setPWM
    (snd (setPWM (hdr := datasheet_header)
            (PCA9685_new 0x40 (responsive_bus 0)) 3 4096 0 [])) =
  Some (18, 4096, 0).
Proof.
  apply (setPWM_bytes_round_trip (hdr := datasheet_header)
           (PCA9685_new 0x40 (responsive_bus 0)) 3 4096 0 []); lia.
Defined.

(** X8 at duty 1000. *)
Lemma setPin_invert_is_complement_witness :
  setPin (hdr := datasheet_header) (PCA9685_new 0x40 (responsive_bus 0)) 3 1000 true [] =
  setPin (hdr := datasheet_header) (PCA9685_new 0x40 (responsive_bus 0)) 3 3095 false [].
Proof.
  apply (setPin_invert_is_complement (hdr := datasheet_header)
           (PCA9685_new 0x40 (responsive_bus 0)) 3 1000 []).
  lia.
Defined.

(** X10 at 50 Hz, [double] being binary64. *)
Lemma prescale_of_integer_frequency_witness :
  prescale_of binary64 (to_format binary32 (of_int binary32 50)) =
    rounded_prescale 50 /\
  2 <= rounded_prescale 50 <= 250.
Proof.
  apply (prescale_of_integer_frequency binary64 50).
  - right. reflexivity.
  - lia.
Defined.

(** X11 at 50 Hz and 60 Hz, [double] being binary32. *)
Lemma prescale_of_antitone_witness :
  prescale_of binary32 (to_format binary32 (of_int binary32 60)) <=
  prescale_of binary32 (to_format binary32 (of_int binary32 50)).
Proof.
  apply (prescale_of_antitone binary32 50 60).
  - left. reflexivity.
  - lia.
  - lia.
  - lia.
Defined.

(** X12 at [begin] on a device that answers everything. *)
Lemma call_own_traffic_witness :
  Forall (own_traffic 64)
    (snd (call (hdr := datasheet_header) binary64
            (PCA9685_new 0x40 (responsive_bus 0)) CallBegin [])).
Proof.
  apply (call_own_traffic (hdr := datasheet_header) binary64
           (PCA9685_new 0x40 (responsive_bus 0)) CallBegin []
           (fst (call (hdr := datasheet_header) binary64
                   (PCA9685_new 0x40 (responsive_bus 0)) CallBegin []))).
  apply surjective_pairing.
Defined.

(** X13 at [begin] on a device that stops acknowledging after [reset]: the
    10 ms of [reset] are spent, the 5 ms of [setPWMFreq] are not. *)
Lemma call_delay_budget_witness :
  let run :=
    call (hdr := datasheet_header) binary64
      (PCA9685_new 0x40 (fading_bus 8 0)) CallBegin [] in
  0 <= total_delay (snd run) <= 15 /\
  (fst run = true -> total_delay (snd run) = 15).
Proof.
  intros run.
  apply (call_delay_budget (hdr := datasheet_header) binary64
           (PCA9685_new 0x40 (fading_bus 8 0)) CallBegin []
           (fst run) (snd run)).
  apply surjective_pairing.
Defined.

(** X14 at a device that stops acknowledging during the prescale write. *)
Lemma setPWMFreq_write_order_witness :
  let run :=
    setPWMFreq (hdr := datasheet_header) binary64
      (PCA9685_new 0x40 (fading_bus 12 0)) (of_int binary32 1000) [] in
  (fst run = false /\
   ((exists st, st <> 0 /\
       snd run = [EvBeginTransmission 64; EvWrite 0; EvEndTransmission false st]) \/
    snd run = [EvBeginTransmission 64; EvWrite 0; EvEndTransmission false 0;
               EvRequestFrom 64 1; EvAvailable 0]) /\
   reg_write_log (snd run) = [])
  \/
  exists n raw k st,
    n <> 0 /\
    firstn 6 (snd run) = reg_read_events 64 0 n raw /\
    (1 <= k <= 4)%nat /\
    reg_write_log (snd run) =
      with_status 0
        (firstn (k - 1)
           (setPWMFreq_writes (hdr := datasheet_header) (u8 raw)
              (prescale_of binary64
                 (to_format binary32 (of_int binary32 1000))))) ++
      with_status st
        (firstn 1
           (skipn (k - 1)
              (setPWMFreq_writes (hdr := datasheet_header) (u8 raw)
                 (prescale_of binary64
                    (to_format binary32 (of_int binary32 1000)))))) /\
    (fst run = true <-> st = 0) /\
    (st = 0 -> k = 4%nat).
Proof.
  intros run.
  apply (setPWMFreq_write_order (hdr := datasheet_header) binary64
           (PCA9685_new 0x40 (fading_bus 12 0)) (of_int binary32 1000) []
           (fst run) (snd run)).
  apply surjective_pairing.
Defined.
